(** * Prompt messages of the plugin SDK

    A shallow embedding of [dify_plugin/entities/model/message.py]: the role
    and content-type enumerations, the content variants, the four message
    variants, the tool-call record, and the validators that run when an
    instance is built.  Python exceptions are the left summand of a sum;
    an untyped [dict] is a finite map from strings to Python values. *)

From Stdlib Require Import ZArith DecimalString DecimalPos DecimalZ.
From stdpp Require Import gmap strings list.

Open Scope string_scope.

(** ** Enumerations *)

Inductive PromptMessageRole := SYSTEM | USER | ASSISTANT | TOOL.

Inductive PromptMessageContentType := TEXT | IMAGE | AUDIO | VIDEO | DOCUMENT.

Inductive DETAIL := LOW | HIGH.

#[global] Instance PromptMessageRole_eq_dec : EqDecision PromptMessageRole.
Proof. solve_decision. Defined.

#[global] Instance PromptMessageContentType_eq_dec : EqDecision PromptMessageContentType.
Proof. solve_decision. Defined.

#[global] Instance DETAIL_eq_dec : EqDecision DETAIL.
Proof. solve_decision. Defined.

(** The [.value] of each member, and its [.name]. *)
Definition role_value (r : PromptMessageRole) : string :=
  match r with
  | SYSTEM => "system"
  | USER => "user"
  | ASSISTANT => "assistant"
  | TOOL => "tool"
  end.

Definition role_name (r : PromptMessageRole) : string :=
  match r with
  | SYSTEM => "SYSTEM"
  | USER => "USER"
  | ASSISTANT => "ASSISTANT"
  | TOOL => "TOOL"
  end.

Definition content_type_value (t : PromptMessageContentType) : string :=
  match t with
  | TEXT => "text"
  | IMAGE => "image"
  | AUDIO => "audio"
  | VIDEO => "video"
  | DOCUMENT => "document"
  end.

Definition content_type_name (t : PromptMessageContentType) : string :=
  match t with
  | TEXT => "TEXT"
  | IMAGE => "IMAGE"
  | AUDIO => "AUDIO"
  | VIDEO => "VIDEO"
  | DOCUMENT => "DOCUMENT"
  end.

Definition detail_value (d : DETAIL) : string :=
  match d with LOW => "low" | HIGH => "high" end.

Definition detail_name (d : DETAIL) : string :=
  match d with LOW => "LOW" | HIGH => "HIGH" end.

(** Iteration order of [for mode in cls]: the order of definition. *)
Definition role_members : list PromptMessageRole := [SYSTEM; USER; ASSISTANT; TOOL].

Definition detail_members : list DETAIL := [LOW; HIGH].

(** ** Python values and exceptions *)

(** The values an untyped input can carry.  [PyOther s] is any object of
    another type (a float, [bytes], a list, a [dict]), known here by the
    string [s] that [str] makes of it. *)
Inductive PyValue :=
  | PyNone
  | PyBool (b : bool)
  | PyInt (z : Z)
  | PyStr (s : string)
  | PyRole (r : PromptMessageRole)
  | PyContentType (t : PromptMessageContentType)
  | PyDetail (d : DETAIL)
  | PyOther (s : string).

(** [isinstance(value, str)]. *)
Definition isinstance_str (value : PyValue) : bool :=
  match value with PyStr _ => true | _ => false end.

(** [value == s] for a string [s]: only a string compares equal to one. *)
Definition eq_str (value : PyValue) (s : string) : bool :=
  match value with PyStr s' => String.eqb s' s | _ => false end.

(** Truthiness of a string and of a list. *)
Definition truthy_str (s : string) : bool :=
  match s with EmptyString => false | String _ _ => true end.

Definition truthy_list {A} (l : list A) : bool :=
  match l with [] => false | _ :: _ => true end.

(** [d.get(key)]: [None] when the key is absent. *)
Definition dict_get (d : gmap string PyValue) (key : string) : PyValue :=
  default PyNone (d !! key).

(** One line of a pydantic validation error: the field and the error type. *)
Inductive ErrorType :=
  | missing
  | string_type
  | literal_error
  | enum_error
  | value_error.

Inductive Exception :=
  | ValueError (msg : string)
  | ValidationError (errors : list (string * ErrorType)).

(** The default of [sys.get_int_max_str_digits()]: an integer with more
    decimal digits is not converted to a string. *)
Definition int_max_str_digits : Z := 4300.

(** [str(value)].  An integer gives its decimal numeral, with a minus sign
    when negative, unless it has more than [int_max_str_digits] digits:
    then [str] raises. *)
Definition py_str (value : PyValue) : Exception + string :=
  match value with
  | PyNone => inr "None"
  | PyBool true => inr "True"
  | PyBool false => inr "False"
  | PyInt z =>
      if (Z.abs z <? 10 ^ int_max_str_digits)%Z then
        inr (NilZero.string_of_int (Z.to_int z))
      else
        inl (ValueError
               ("Exceeds the limit (4300 digits) for integer string conversion; "
                +:+ "use sys.set_int_max_str_digits() to increase the limit"))
  | PyStr s => inr s
  | PyRole r => inr ("PromptMessageRole." +:+ role_name r)
  | PyContentType t => inr ("PromptMessageContentType." +:+ content_type_name t)
  | PyDetail d => inr ("DETAIL." +:+ detail_name d)
  | PyOther s => inr s
  end.

(** ** PromptMessageRole.value_of *)

Fixpoint value_of_loop (members : list PromptMessageRole) (value : string)
  : Exception + PromptMessageRole :=
  match members with
  | [] => inl (ValueError ("invalid prompt message type value " +:+ value))
  | mode :: members' =>
      if String.eqb (role_value mode) value then inr mode
      else value_of_loop members' value
  end.

Definition value_of (value : string) : Exception + PromptMessageRole :=
  value_of_loop role_members value.

(** ** Field validation

    A field of a model is validated on its own; the errors of all fields are
    gathered, in field order, into one [ValidationError].  A [str] field
    takes a string only, a field with a default may be absent, keys that
    name no field are ignored. *)

Definition errors_of {A} (v : list (string * ErrorType) + A) : list (string * ErrorType) :=
  match v with inl e => e | inr _ => [] end.

Definition model_validate {A} (v : list (string * ErrorType) + A) : Exception + A :=
  match v with inl e => inl (ValidationError e) | inr a => inr a end.

Definition str_field (loc : string) (dflt : option string) (data : gmap string PyValue)
  : list (string * ErrorType) + string :=
  match data !! loc with
  | None =>
      match dflt with
      | Some s => inr s
      | None => inl [(loc, missing)]
      end
  | Some (PyStr s) => inr s
  | Some _ => inl [(loc, string_type)]
  end.

(** [type: Literal[t] = t]: the member itself and nothing else.  The
    content types are a plain [Enum], whose members are not strings, so the
    string value of the member is not the member and is refused. *)
Definition type_field (t : PromptMessageContentType) (data : gmap string PyValue)
  : list (string * ErrorType) + PromptMessageContentType :=
  match data !! "type" with
  | None => inr t
  | Some (PyContentType t') =>
      if decide (t' = t) then inr t else inl [("type", literal_error)]
  | Some _ => inl [("type", literal_error)]
  end.

Fixpoint detail_of_value (members : list DETAIL) (s : string) : option DETAIL :=
  match members with
  | [] => None
  | d :: members' =>
      if String.eqb (detail_value d) s then Some d else detail_of_value members' s
  end.

(** [detail: DETAIL = DETAIL.LOW]. *)
Definition detail_field (data : gmap string PyValue) : list (string * ErrorType) + DETAIL :=
  match data !! "detail" with
  | None => inr LOW
  | Some (PyDetail d) => inr d
  | Some (PyStr s) =>
      match detail_of_value detail_members s with
      | Some d => inr d
      | None => inl [("detail", enum_error)]
      end
  | Some _ => inl [("detail", enum_error)]
  end.

(** ** Content variants *)

Record MultiModalPromptMessageContent := {
  format : string;
  base64_data : string;
  url : string;
  mime_type : string
}.

(** The [data] property: [self.url or f"data:{mime_type};base64,{base64_data}"]. *)
Definition data (self : MultiModalPromptMessageContent) : string :=
  if truthy_str (url self) then url self
  else "data:" +:+ mime_type self +:+ ";base64," +:+ base64_data self.

Inductive PromptMessageContent :=
  | TextPromptMessageContent (text_data : string)
  | ImagePromptMessageContent (mm : MultiModalPromptMessageContent) (detail : DETAIL)
  | DocumentPromptMessageContent (mm : MultiModalPromptMessageContent)
  | AudioPromptMessageContent (mm : MultiModalPromptMessageContent)
  | VideoPromptMessageContent (mm : MultiModalPromptMessageContent).

(** The [type] field of a content value, fixed by its class. *)
Definition content_type (c : PromptMessageContent) : PromptMessageContentType :=
  match c with
  | TextPromptMessageContent _ => TEXT
  | ImagePromptMessageContent _ _ => IMAGE
  | DocumentPromptMessageContent _ => DOCUMENT
  | AudioPromptMessageContent _ => AUDIO
  | VideoPromptMessageContent _ => VIDEO
  end.

(** [c.data]: the field of a text content, the property of the others. *)
Definition content_data (c : PromptMessageContent) : string :=
  match c with
  | TextPromptMessageContent s => s
  | ImagePromptMessageContent mm _ => data mm
  | DocumentPromptMessageContent mm => data mm
  | AudioPromptMessageContent mm => data mm
  | VideoPromptMessageContent mm => data mm
  end.

(** The four fields every multi-modal class inherits, in field order. *)
Definition multi_modal_fields (kw : gmap string PyValue)
  : list (string * ErrorType) + MultiModalPromptMessageContent :=
  let f := str_field "format" None kw in
  let b := str_field "base64_data" (Some "") kw in
  let u := str_field "url" (Some "") kw in
  let m := str_field "mime_type" None kw in
  match f, b, u, m with
  | inr f', inr b', inr u', inr m' =>
      inr {| format := f'; base64_data := b'; url := u'; mime_type := m' |}
  | _, _, _, _ => inl (errors_of f ++ errors_of b ++ errors_of u ++ errors_of m)%list
  end.

(** The constructor of [TextPromptMessageContent], called with the keyword
    arguments [kw]. *)
Definition new_text (kw : gmap string PyValue) : Exception + PromptMessageContent :=
  let t := type_field TEXT kw in
  let d := str_field "data" None kw in
  model_validate
    match t, d with
    | inr _, inr d' => inr (TextPromptMessageContent d')
    | _, _ => inl (errors_of t ++ errors_of d)%list
    end.

(** The constructor of [ImagePromptMessageContent]. *)
Definition new_image (kw : gmap string PyValue) : Exception + PromptMessageContent :=
  let mm := multi_modal_fields kw in
  let t := type_field IMAGE kw in
  let d := detail_field kw in
  model_validate
    match mm, t, d with
    | inr mm', inr _, inr d' => inr (ImagePromptMessageContent mm' d')
    | _, _, _ => inl (errors_of mm ++ errors_of t ++ errors_of d)%list
    end.

(** The constructors of the document, audio and video classes: the
    inherited fields and a [type] literal. *)
Definition new_multi_modal (t : PromptMessageContentType)
    (mk : MultiModalPromptMessageContent → PromptMessageContent)
    (kw : gmap string PyValue) : Exception + PromptMessageContent :=
  let mm := multi_modal_fields kw in
  let ty := type_field t kw in
  model_validate
    match mm, ty with
    | inr mm', inr _ => inr (mk mm')
    | _, _ => inl (errors_of mm ++ errors_of ty)%list
    end.

Definition new_document := new_multi_modal DOCUMENT DocumentPromptMessageContent.

Definition new_audio := new_multi_modal AUDIO AudioPromptMessageContent.

Definition new_video := new_multi_modal VIDEO VideoPromptMessageContent.

(** The constructor of the class a type tag names. *)
Definition new_content (t : PromptMessageContentType) (kw : gmap string PyValue)
  : Exception + PromptMessageContent :=
  match t with
  | TEXT => new_text kw
  | IMAGE => new_image kw
  | DOCUMENT => new_document kw
  | AUDIO => new_audio kw
  | VIDEO => new_video kw
  end.

(** ** PromptMessage *)

(** An element of the sequence handed to [content]: an instance of a
    content class, or an untyped [dict]. *)
Inductive ContentItem :=
  | Typed (c : PromptMessageContent)
  | Dict (d : gmap string PyValue).

(** What a caller may pass as [content]. *)
Inductive ContentArg :=
  | ArgNone
  | ArgStr (s : string)
  | ArgSeq (l : list ContentItem).

(** What the [content] field holds: [Optional[str | list[...]]]. *)
Inductive Content :=
  | ContentNone
  | ContentStr (s : string)
  | ContentList (l : list PromptMessageContent).

Definition truthy_content (c : Content) : bool :=
  match c with
  | ContentNone => false
  | ContentStr s => truthy_str s
  | ContentList l => truthy_list l
  end.

(** [value or []], for a [value] that is not a string. *)
Definition or_empty (value : ContentArg) : list ContentItem :=
  match value with
  | ArgSeq l => if truthy_list l then l else []
  | _ => []
  end.

(** The body of [for content in value or []], with [result] as it stands
    when the iteration reaches [value]. *)
Fixpoint transform_content_loop (value : list ContentItem)
    (result : list PromptMessageContent) : Exception + list PromptMessageContent :=
  match value with
  | [] => inr result
  | Typed c :: value' => transform_content_loop value' (result ++ [c])
  | Dict content :: value' =>
      let tag := dict_get content "type" in
      if eq_str tag (content_type_value TEXT) then
        match new_text content with
        | inl e => inl e
        | inr c => transform_content_loop value' (result ++ [c])
        end
      else if eq_str tag (content_type_value IMAGE) then
        match new_image content with
        | inl e => inl e
        | inr c => transform_content_loop value' (result ++ [c])
        end
      else if eq_str tag (content_type_value DOCUMENT) then
        match new_document content with
        | inl e => inl e
        | inr c => transform_content_loop value' (result ++ [c])
        end
      else if eq_str tag (content_type_value AUDIO) then
        match new_audio content with
        | inl e => inl e
        | inr c => transform_content_loop value' (result ++ [c])
        end
      else if eq_str tag (content_type_value VIDEO) then
        match new_video content with
        | inl e => inl e
        | inr c => transform_content_loop value' (result ++ [c])
        end
      else transform_content_loop value' result
  end.

(** The [content] validator, run before the field is checked. *)
Definition transform_content (value : ContentArg) : Exception + Content :=
  match value with
  | ArgStr s => inr (ContentStr s)
  | _ =>
      match transform_content_loop (or_empty value) [] with
      | inl e => inl e
      | inr result => inr (ContentList result)
      end
  end.

(** An error raised inside a field's validator is reported under the field. *)
Definition under (loc : string) (e : Exception) : list (string * ErrorType) :=
  match e with
  | ValidationError errors => (λ '(l, ty), (loc +:+ "." +:+ l, ty)) <$> errors
  | ValueError _ => [(loc, value_error)]
  end.

Fixpoint role_of_value (members : list PromptMessageRole) (s : string)
  : option PromptMessageRole :=
  match members with
  | [] => None
  | r :: members' =>
      if String.eqb (role_value r) s then Some r else role_of_value members' s
  end.

(** [role: PromptMessageRole], with the default of the class when it has
    one.  A value the caller gives is taken as given. *)
Definition role_field (dflt : option PromptMessageRole) (arg : option PyValue)
  : list (string * ErrorType) + PromptMessageRole :=
  match arg with
  | None =>
      match dflt with
      | Some r => inr r
      | None => inl [("role", missing)]
      end
  | Some (PyRole r) => inr r
  | Some (PyStr s) =>
      match role_of_value role_members s with
      | Some r => inr r
      | None => inl [("role", enum_error)]
      end
  | Some _ => inl [("role", enum_error)]
  end.

(** [content: Optional[...] = None]: the validator runs on a value the
    caller gives, not on the default. *)
Definition content_field (arg : option ContentArg) : list (string * ErrorType) + Content :=
  match arg with
  | None => inr ContentNone
  | Some value =>
      match transform_content value with
      | inl e => inl (under "content" e)
      | inr c => inr c
      end
  end.

(** [name: Optional[str] = None]. *)
Definition name_field (arg : option PyValue) : list (string * ErrorType) + option string :=
  match arg with
  | None => inr None
  | Some PyNone => inr None
  | Some (PyStr s) => inr (Some s)
  | Some _ => inl [("name", string_type)]
  end.

Module PromptMessage.

Record t := {
  role : PromptMessageRole;
  content : Content;
  name : option string
}.

(** The keyword arguments of a constructor; [None] is an argument left out. *)
Record Args := {
  role_arg : option PyValue;
  content_arg : option ContentArg;
  name_arg : option PyValue
}.

Definition is_empty (self : t) : bool := negb (truthy_content (content self)).

(** The three fields, for a class whose [role] defaults to [dflt]. *)
Definition fields (dflt : option PromptMessageRole) (args : Args)
  : list (string * ErrorType) + t :=
  let r := role_field dflt (role_arg args) in
  let c := content_field (content_arg args) in
  let n := name_field (name_arg args) in
  match r, c, n with
  | inr r', inr c', inr n' => inr {| role := r'; content := c'; name := n' |}
  | _, _, _ => inl (errors_of r ++ errors_of c ++ errors_of n)%list
  end.

Definition new (args : Args) : Exception + t := model_validate (fields None args).

End PromptMessage.

Module UserPromptMessage.

Definition new (args : PromptMessage.Args) : Exception + PromptMessage.t :=
  model_validate (PromptMessage.fields (Some USER) args).

Definition is_empty := PromptMessage.is_empty.

End UserPromptMessage.

Module AssistantPromptMessage.

Module ToolCall.

Record ToolCallFunction := {
  name : string;
  arguments : string
}.

Record t := {
  id : string;
  type : string;
  function : ToolCallFunction
}.

(** The [id] validator, run before the field is checked.  It raises what
    [str] raises. *)
Definition transform_id_to_str (value : PyValue) : Exception + PyValue :=
  if negb (isinstance_str value) then
    match py_str value with
    | inl e => inl e
    | inr s => inr (PyStr s)
    end
  else inr value.

(** A [str] field given as an argument, required. *)
Definition str_arg (loc : string) (arg : option PyValue)
  : list (string * ErrorType) + string :=
  match arg with
  | None => inl [(loc, missing)]
  | Some (PyStr s) => inr s
  | Some _ => inl [(loc, string_type)]
  end.

Definition new (id_arg type_arg : option PyValue)
    (function_arg : option ToolCallFunction) : Exception + t :=
  let i :=
    match id_arg with
    | None => inl [("id", missing)]
    | Some value =>
        match transform_id_to_str value with
        | inl e => inl (under "id" e)
        | inr v => str_arg "id" (Some v)
        end
    end in
  let ty := str_arg "type" type_arg in
  let f :=
    match function_arg with
    | Some f' => inr f'
    | None => inl [("function", missing)]
    end in
  model_validate
    match i, ty, f with
    | inr i', inr ty', inr f' => inr {| id := i'; type := ty'; function := f' |}
    | _, _, _ => inl (errors_of i ++ errors_of ty ++ errors_of f)%list
    end.

End ToolCall.

Record t := {
  base : PromptMessage.t;
  tool_calls : list ToolCall.t
}.

(** [tool_calls: list[ToolCall] = []]. *)
Definition new (args : PromptMessage.Args) (tool_calls_arg : option (list ToolCall.t))
  : Exception + t :=
  let b := PromptMessage.fields (Some ASSISTANT) args in
  model_validate
    match b with
    | inr b' => inr {| base := b'; tool_calls := default [] tool_calls_arg |}
    | inl e => inl e
    end.

Definition is_empty (self : t) : bool :=
  negb (negb (PromptMessage.is_empty (base self)) && negb (truthy_list (tool_calls self))).

End AssistantPromptMessage.

Module SystemPromptMessage.

Definition new (args : PromptMessage.Args) : Exception + PromptMessage.t :=
  model_validate (PromptMessage.fields (Some SYSTEM) args).

Definition is_empty := PromptMessage.is_empty.

End SystemPromptMessage.

Module ToolPromptMessage.

Record t := {
  base : PromptMessage.t;
  tool_call_id : string
}.

Definition new (args : PromptMessage.Args) (tool_call_id_arg : option PyValue)
  : Exception + t :=
  let b := PromptMessage.fields (Some TOOL) args in
  let i := AssistantPromptMessage.ToolCall.str_arg "tool_call_id" tool_call_id_arg in
  model_validate
    match b, i with
    | inr b', inr i' => inr {| base := b'; tool_call_id := i' |}
    | _, _ => inl (errors_of b ++ errors_of i)%list
    end.

Definition is_empty (self : t) : bool :=
  negb (negb (PromptMessage.is_empty (base self)) && negb (truthy_str (tool_call_id self))).

End ToolPromptMessage.

(** ** Vocabulary of the statements *)

(** The four role strings of the wire format. *)
Definition canonical_roles : list string := ["system"; "user"; "assistant"; "tool"].

(** A [dict] carries a recognized tag when its [type] entry is the string
    value of one of the five content types. *)
Definition recognized (d : gmap string PyValue) : Prop :=
  ∃ t, d !! "type" = Some (PyStr (content_type_value t)).

(** What an element of the input sequence contributes when it is kept: a
    typed value itself, a [dict] the instance its tag's class builds. *)
Inductive yields : ContentItem → PromptMessageContent → Prop :=
  | yields_typed c : yields (Typed c) c
  | yields_dict d t c :
      d !! "type" = Some (PyStr (content_type_value t)) →
      new_content t d = inr c →
      yields (Dict d) c.

Definition is_typed (x : ContentItem) : bool :=
  match x with Typed _ => true | Dict _ => false end.

(** The content type a string is the value of, tried in the order in which
    the validator compares the tag. *)
Definition content_type_of_value (s : string) : option PromptMessageContentType :=
  if String.eqb s "text" then Some TEXT
  else if String.eqb s "image" then Some IMAGE
  else if String.eqb s "document" then Some DOCUMENT
  else if String.eqb s "audio" then Some AUDIO
  else if String.eqb s "video" then Some VIDEO
  else None.

(** The content type the tag of a [dict] names, if any. *)
Definition tag_of (d : gmap string PyValue) : option PromptMessageContentType :=
  match d !! "type" with
  | Some (PyStr s) => content_type_of_value s
  | _ => None
  end.

(** A [dict] whose tag is the string "bogus". *)
Definition bogus : gmap string PyValue := {[ "type" := PyStr "bogus" ]}.

(** The fields without a default. *)
Definition required_fields (t : PromptMessageContentType) : list string :=
  match t with
  | TEXT => ["data"]
  | _ => ["format"; "mime_type"]
  end.

(** A tool call used in the examples. *)
Definition sample_tool_call : AssistantPromptMessage.ToolCall.t :=
  {| AssistantPromptMessage.ToolCall.id := "call_1";
     AssistantPromptMessage.ToolCall.type := "function";
     AssistantPromptMessage.ToolCall.function :=
       {| AssistantPromptMessage.ToolCall.name := "lookup";
          AssistantPromptMessage.ToolCall.arguments := "{}" |} |}.

(** Keyword arguments that give [content=None] and nothing else. *)
Definition none_content_args : PromptMessage.Args :=
  {| PromptMessage.role_arg := None;
     PromptMessage.content_arg := Some ArgNone;
     PromptMessage.name_arg := None |}.

(** The argument that hands a stored content back to the validator. *)
Definition as_arg (c : Content) : ContentArg :=
  match c with
  | ContentNone => ArgNone
  | ContentStr s => ArgStr s
  | ContentList l => ArgSeq (Typed <$> l)
  end.

(** The content type an element of the input stands for: the type of a
    typed value, the type the tag of a [dict] names, none for another
    [dict]. *)
Definition item_type (x : ContentItem) : option PromptMessageContentType :=
  match x with
  | Typed c => Some (content_type c)
  | Dict d => tag_of d
  end.

(** The content value a typed element of the input is. *)
Definition typed_value (x : ContentItem) : option PromptMessageContent :=
  match x with
  | Typed c => Some c
  | Dict _ => None
  end.

(** An element of the input that is not a [dict] with a recognized tag. *)
Definition unrecognized_item (x : ContentItem) : Prop :=
  ∀ d, x = Dict d → ¬ recognized d.

(** Keyword arguments that give a content and nothing else. *)
Definition content_args (value : ContentArg) : PromptMessage.Args :=
  {| PromptMessage.role_arg := None;
     PromptMessage.content_arg := Some value;
     PromptMessage.name_arg := None |}.

(** * Properties *)

(** ** Role parsing *)

Lemma value_of_loop_sound members v r :
  value_of_loop members v = inr r → role_value r = v.
Proof.
  induction members as [|m ms IH]; simpl; [discriminate|].
  destruct (String.eqb_spec (role_value m) v) as [Heq|Hne].
  - intros [= <-]. exact Heq.
  - exact IH.
Qed.

Lemma value_of_loop_none members v :
  (∀ r, role_value r ≠ v) →
  value_of_loop members v = inl (ValueError ("invalid prompt message type value " +:+ v)).
Proof.
  intros Hv. induction members as [|m ms IH]; [reflexivity|].
  cbn [value_of_loop].
  destruct (String.eqb_spec (role_value m) v) as [Heq|_]; [|exact IH].
  destruct (Hv m Heq).
Qed.

Lemma value_of_member (r : PromptMessageRole) : value_of (role_value r) = inr r.
Proof. destruct r; reflexivity. Qed.

Lemma canonical_roles_values v :
  v ∈ canonical_roles ↔ ∃ r, role_value r = v.
Proof.
  unfold canonical_roles. split.
  - rewrite !elem_of_cons, elem_of_nil.
    intros [->|[->|[->|[->|[]]]]];
      [exists SYSTEM|exists USER|exists ASSISTANT|exists TOOL]; reflexivity.
  - intros [r <-]. destruct r; simpl; set_solver.
Qed.

(** C6: [value_of v] returns a role exactly when [v] is one of the four
    canonical strings; the role it returns has value [v]; on any other
    string it raises the [ValueError] that names [v]. *)
Theorem value_of_spec (v : string) :
  ((∃ r, value_of v = inr r) ↔ v ∈ canonical_roles) ∧
  (∀ r, value_of v = inr r → role_value r = v) ∧
  (v ∉ canonical_roles →
     value_of v = inl (ValueError ("invalid prompt message type value " +:+ v))).
Proof.
  split; [|split].
  - rewrite canonical_roles_values. split.
    + intros [r Hr]. exists r. eapply value_of_loop_sound, Hr.
    + intros [r <-]. exists r. apply value_of_member.
  - intros r. apply value_of_loop_sound.
  - rewrite canonical_roles_values. intros Hv.
    apply value_of_loop_none. intros r Hr. apply Hv. by exists r.
Qed.

(** ** The data accessor of multi-modal content *)

Lemma truthy_str_empty s : truthy_str s = false ↔ s = "".
Proof. destruct s; simpl; split; congruence. Qed.

(** C5: on an image, audio, video or document content, [data] is the
    [url] when that is a non-empty string, and the data URI built from
    [mime_type] and [base64_data] otherwise. *)
Theorem data_spec (mm : MultiModalPromptMessageContent) (d : DETAIL) :
  Forall
    (λ c, content_data c =
          if decide (url mm = "") then
            "data:" +:+ mime_type mm +:+ ";base64," +:+ base64_data mm
          else url mm)
    [ImagePromptMessageContent mm d; AudioPromptMessageContent mm;
     VideoPromptMessageContent mm; DocumentPromptMessageContent mm]
  ∧ content_data
      (ImagePromptMessageContent
         {| format := "png"; base64_data := "AAAA"; url := "";
            mime_type := "image/png" |} LOW)
    = "data:image/png;base64,AAAA".
Proof.
  split; [|reflexivity].
  assert (data mm = if decide (url mm = "") then
            "data:" +:+ mime_type mm +:+ ";base64," +:+ base64_data mm
          else url mm) as Hd.
  { unfold data. destruct (truthy_str (url mm)) eqn:Ht; case_decide as Hu.
    - apply truthy_str_empty in Hu. congruence.
    - reflexivity.
    - reflexivity.
    - apply truthy_str_empty in Ht. contradiction. }
  repeat constructor; exact Hd.
Qed.

(** ** Coercion of a tool-call id *)

(** The numeral printed for an integer reads back as that integer, digit
    for digit. *)
Lemma numeral_parses (z : Z) :
  NilZero.int_of_string (NilZero.string_of_int (Z.to_int z)) = Some (Z.to_int z).
Proof.
  apply NilZero.isi; destruct z as [|p|p]; cbn [Z.to_int]; try discriminate.
  - intros [= H]. by apply DecimalPos.Unsigned.to_uint_nonnil in H.
  - intros [= H]. by apply DecimalPos.Unsigned.to_uint_nonnil in H.
Qed.

Lemma py_str_int_small (z : Z) :
  (Z.abs z < 10 ^ int_max_str_digits)%Z →
  py_str (PyInt z) = inr (NilZero.string_of_int (Z.to_int z)).
Proof.
  intros Hz. unfold py_str.
  destruct (Z.ltb_spec (Z.abs z) (10 ^ int_max_str_digits)); [reflexivity|lia].
Qed.


Lemma transform_id_to_str_int_small (z : Z) :
  (Z.abs z < 10 ^ int_max_str_digits)%Z →
  AssistantPromptMessage.ToolCall.transform_id_to_str (PyInt z)
  = inr (PyStr (NilZero.string_of_int (Z.to_int z))).
Proof.
  intros Hz. unfold AssistantPromptMessage.ToolCall.transform_id_to_str.
  cbn [isinstance_str negb]. by rewrite (py_str_int_small z Hz).
Qed.


Lemma small_integers_in_range :
  (Z.abs 42 < 10 ^ int_max_str_digits)%Z ∧ (Z.abs (-5) < 10 ^ int_max_str_digits)%Z ∧
  (Z.abs 7 < 10 ^ int_max_str_digits)%Z.
Proof. by vm_compute. Qed.




(** ** Emptiness *)

Lemma content_field_none : content_field (Some ArgNone) = inr (ContentList []).
Proof. reflexivity. Qed.

Lemma fields_inv dflt args m :
  PromptMessage.fields dflt args = inr m →
  role_field dflt (PromptMessage.role_arg args) = inr (PromptMessage.role m) ∧
  content_field (PromptMessage.content_arg args) = inr (PromptMessage.content m) ∧
  name_field (PromptMessage.name_arg args) = inr (PromptMessage.name m).
Proof.
  unfold PromptMessage.fields.
  destruct (role_field _ _), (content_field _), (name_field _); try discriminate.
  intros [= <-]. done.
Qed.

Lemma model_validate_inr {A} (v : list (string * ErrorType) + A) a :
  model_validate v = inr a → v = inr a.
Proof. destruct v; simpl; congruence. Qed.

Lemma assistant_new_inv args tcs m :
  AssistantPromptMessage.new args tcs = inr m →
  PromptMessage.fields (Some ASSISTANT) args = inr (AssistantPromptMessage.base m).
Proof.
  unfold AssistantPromptMessage.new. intros H%model_validate_inr.
  destruct (PromptMessage.fields _ _); [discriminate|]. by injection H as <-.
Qed.

Lemma tool_new_inv args i m :
  ToolPromptMessage.new args i = inr m →
  PromptMessage.fields (Some TOOL) args = inr (ToolPromptMessage.base m).
Proof.
  unfold ToolPromptMessage.new. intros H%model_validate_inr.
  destruct (PromptMessage.fields _ _); [discriminate|].
  destruct (AssistantPromptMessage.ToolCall.str_arg _ _); [discriminate|].
  by injection H as <-.
Qed.

(** C1: what [AssistantPromptMessage.is_empty] computes.  It answers [True]
    as soon as the content is empty or a tool call is present, so the
    message built with [content=None] and one tool call is reported empty,
    and so is one with the content "hi" and a tool call. *)
Theorem assistant_is_empty_with_tool_call :
  (∀ m, AssistantPromptMessage.is_empty m
        = PromptMessage.is_empty (AssistantPromptMessage.base m)
          || truthy_list (AssistantPromptMessage.tool_calls m)) ∧
  (∃ m, AssistantPromptMessage.new none_content_args (Some [sample_tool_call]) = inr m ∧
        AssistantPromptMessage.tool_calls m = [sample_tool_call] ∧
        AssistantPromptMessage.is_empty m = true) ∧
  (∃ m, AssistantPromptMessage.new
          {| PromptMessage.role_arg := None;
             PromptMessage.content_arg := Some (ArgStr "hi");
             PromptMessage.name_arg := None |}
          (Some [sample_tool_call]) = inr m ∧
        AssistantPromptMessage.is_empty m = true).
Proof.
  split; [|split].
  - intros m. unfold AssistantPromptMessage.is_empty.
    destruct (PromptMessage.is_empty _), (truthy_list _); reflexivity.
  - eexists. split; [reflexivity|]. split; reflexivity.
  - eexists. split; reflexivity.
Qed.

(** C2: what [ToolPromptMessage.is_empty] computes.  It answers [True] as
    soon as the content is empty or [tool_call_id] is a non-empty string, so
    the message built with [content=None] and the id "call_1" is reported
    empty. *)
Theorem tool_is_empty_with_call_id :
  (∀ m, ToolPromptMessage.is_empty m
        = PromptMessage.is_empty (ToolPromptMessage.base m)
          || truthy_str (ToolPromptMessage.tool_call_id m)) ∧
  (∃ m, ToolPromptMessage.new none_content_args (Some (PyStr "call_1")) = inr m ∧
        ToolPromptMessage.tool_call_id m = "call_1" ∧
        ToolPromptMessage.is_empty m = true).
Proof.
  split.
  - intros m. unfold ToolPromptMessage.is_empty.
    destruct (PromptMessage.is_empty _), (truthy_str _); reflexivity.
  - eexists. split; [reflexivity|]. split; reflexivity.
Qed.

(** C10: a message of any of the four classes built with [content=None]
    holds the empty list in [content], not [None], and is empty under the
    rule of the base class. *)
Theorem none_content_is_empty_list (args : PromptMessage.Args)
    (Hnone : PromptMessage.content_arg args = Some ArgNone) :
  (∀ m, UserPromptMessage.new args = inr m →
        PromptMessage.content m = ContentList [] ∧ UserPromptMessage.is_empty m = true) ∧
  (∀ m, SystemPromptMessage.new args = inr m →
        PromptMessage.content m = ContentList [] ∧ SystemPromptMessage.is_empty m = true) ∧
  (∀ tcs m, AssistantPromptMessage.new args tcs = inr m →
        PromptMessage.content (AssistantPromptMessage.base m) = ContentList [] ∧
        PromptMessage.is_empty (AssistantPromptMessage.base m) = true) ∧
  (∀ i m, ToolPromptMessage.new args i = inr m →
        PromptMessage.content (ToolPromptMessage.base m) = ContentList [] ∧
        PromptMessage.is_empty (ToolPromptMessage.base m) = true).
Proof.
  assert (∀ dflt m, PromptMessage.fields dflt args = inr m →
            PromptMessage.content m = ContentList [] ∧ PromptMessage.is_empty m = true)
    as Hbase.
  { intros dflt m (_ & Hc & _)%fields_inv.
    rewrite Hnone, content_field_none in Hc. injection Hc as Hc.
    unfold PromptMessage.is_empty. by rewrite <- Hc. }
  repeat split.
  - eapply Hbase, model_validate_inr, H.
  - eapply Hbase, model_validate_inr, H.
  - eapply Hbase, model_validate_inr, H.
  - eapply Hbase, model_validate_inr, H.
  - eapply Hbase, assistant_new_inv, H.
  - eapply Hbase, assistant_new_inv, H.
  - eapply Hbase, tool_new_inv, H.
  - eapply Hbase, tool_new_inv, H.
Qed.

Lemma none_content_is_empty_list_witness :
  PromptMessage.content_arg none_content_args = Some ArgNone ∧
  UserPromptMessage.new none_content_args
    = inr {| PromptMessage.role := USER; PromptMessage.content := ContentList [];
             PromptMessage.name := None |} ∧
  PromptMessage.content
    {| PromptMessage.role := USER; PromptMessage.content := ContentList [];
       PromptMessage.name := None |} = ContentList [] ∧
  UserPromptMessage.is_empty
    {| PromptMessage.role := USER; PromptMessage.content := ContentList [];
       PromptMessage.name := None |} = true.
Proof.
  split; [reflexivity|]. split; [reflexivity|].
  apply (proj1 (none_content_is_empty_list none_content_args eq_refl)).
  reflexivity.
Defined.

(** ** The role of a message *)

(** The keyword arguments [role=PromptMessageRole.SYSTEM] and nothing else. *)
Definition system_role_args : PromptMessage.Args :=
  {| PromptMessage.role_arg := Some (PyRole SYSTEM);
     PromptMessage.content_arg := None;
     PromptMessage.name_arg := None |}.

(** C3, as stated, fails: a [UserPromptMessage] built with
    [role=PromptMessageRole.SYSTEM] is accepted and carries the role
    [SYSTEM], not [USER]. *)
Lemma user_message_keeps_given_role :
  ∃ m, UserPromptMessage.new system_role_args = inr m ∧
       PromptMessage.role m = SYSTEM ∧
       PromptMessage.role m ≠ USER.
Proof. eexists. split; [reflexivity|]. split; [reflexivity|discriminate]. Qed.

Lemma role_of_fields dflt args m :
  PromptMessage.fields (Some dflt) args = inr m →
  (PromptMessage.role_arg args = None → PromptMessage.role m = dflt) ∧
  (∀ r, PromptMessage.role_arg args = Some (PyRole r) → PromptMessage.role m = r).
Proof.
  intros (Hr & _ & _)%fields_inv. split.
  - intros Harg. rewrite Harg in Hr. simpl in Hr. congruence.
  - intros r Harg. rewrite Harg in Hr. simpl in Hr. congruence.
Qed.

Lemma role_of_value_sound members s r :
  role_of_value members s = Some r → role_value r = s.
Proof.
  induction members as [|m ms IH]; cbn [role_of_value]; [discriminate|].
  destruct (String.eqb_spec (role_value m) s) as [Heq|_]; [|exact IH].
  by intros [= <-].
Qed.

Lemma role_of_fields_given dflt args m v :
  PromptMessage.fields dflt args = inr m →
  PromptMessage.role_arg args = Some v →
  v = PyRole (PromptMessage.role m) ∨ v = PyStr (role_value (PromptMessage.role m)).
Proof.
  intros (Hr & _ & _)%fields_inv Harg. rewrite Harg in Hr.
  destruct v; cbn [role_field] in Hr; try discriminate.
  - right. destruct (role_of_value role_members s) as [r|] eqn:Hs; [|discriminate].
    injection Hr as <-. by rewrite (role_of_value_sound _ _ _ Hs).
  - left. congruence.
Qed.

(** C3, amended: the role of a class is a default.  A message built with
    [role] left out carries the role of its class (system, user, assistant,
    tool); a message built with a role carries the role it was given: the
    member itself, or the member whose value is the string given, and
    nothing else is accepted as a role. *)
Theorem role_is_default_or_given (args : PromptMessage.Args) :
  (PromptMessage.role_arg args = None →
     (∀ m, SystemPromptMessage.new args = inr m → PromptMessage.role m = SYSTEM) ∧
     (∀ m, UserPromptMessage.new args = inr m → PromptMessage.role m = USER) ∧
     (∀ tcs m, AssistantPromptMessage.new args tcs = inr m →
        PromptMessage.role (AssistantPromptMessage.base m) = ASSISTANT) ∧
     (∀ i m, ToolPromptMessage.new args i = inr m →
        PromptMessage.role (ToolPromptMessage.base m) = TOOL)) ∧
  (∀ r, PromptMessage.role_arg args = Some (PyRole r) →
     (∀ m, SystemPromptMessage.new args = inr m → PromptMessage.role m = r) ∧
     (∀ m, UserPromptMessage.new args = inr m → PromptMessage.role m = r) ∧
     (∀ tcs m, AssistantPromptMessage.new args tcs = inr m →
        PromptMessage.role (AssistantPromptMessage.base m) = r) ∧
     (∀ i m, ToolPromptMessage.new args i = inr m →
        PromptMessage.role (ToolPromptMessage.base m) = r)) ∧
  (∀ v, PromptMessage.role_arg args = Some v →
     (∀ m, SystemPromptMessage.new args = inr m →
        v = PyRole (PromptMessage.role m) ∨
        v = PyStr (role_value (PromptMessage.role m))) ∧
     (∀ m, UserPromptMessage.new args = inr m →
        v = PyRole (PromptMessage.role m) ∨
        v = PyStr (role_value (PromptMessage.role m))) ∧
     (∀ tcs m, AssistantPromptMessage.new args tcs = inr m →
        v = PyRole (PromptMessage.role (AssistantPromptMessage.base m)) ∨
        v = PyStr (role_value (PromptMessage.role (AssistantPromptMessage.base m)))) ∧
     (∀ i m, ToolPromptMessage.new args i = inr m →
        v = PyRole (PromptMessage.role (ToolPromptMessage.base m)) ∨
        v = PyStr (role_value (PromptMessage.role (ToolPromptMessage.base m))))).
Proof.
  split; [|split].
  - intros Harg. repeat split.
    + intros m Hm%model_validate_inr. destruct (role_of_fields _ _ _ Hm); auto.
    + intros m Hm%model_validate_inr. destruct (role_of_fields _ _ _ Hm); auto.
    + intros tcs m Hm%assistant_new_inv. destruct (role_of_fields _ _ _ Hm); auto.
    + intros i m Hm%tool_new_inv. destruct (role_of_fields _ _ _ Hm); auto.
  - intros r Harg. repeat split.
    + intros m Hm%model_validate_inr. destruct (role_of_fields _ _ _ Hm); auto.
    + intros m Hm%model_validate_inr. destruct (role_of_fields _ _ _ Hm); auto.
    + intros tcs m Hm%assistant_new_inv. destruct (role_of_fields _ _ _ Hm); auto.
    + intros i m Hm%tool_new_inv. destruct (role_of_fields _ _ _ Hm); auto.
  - intros v Harg. split; [|split; [|split]].
    + intros m Hm%model_validate_inr. exact (role_of_fields_given _ _ _ _ Hm Harg).
    + intros m Hm%model_validate_inr. exact (role_of_fields_given _ _ _ _ Hm Harg).
    + intros tcs m Hm%assistant_new_inv. exact (role_of_fields_given _ _ _ _ Hm Harg).
    + intros i m Hm%tool_new_inv. exact (role_of_fields_given _ _ _ _ Hm Harg).
Qed.

Lemma role_is_default_or_given_witness :
  PromptMessage.role_arg none_content_args = None ∧
  ToolPromptMessage.new none_content_args (Some (PyStr "call_1"))
    = inr {| ToolPromptMessage.base :=
               {| PromptMessage.role := TOOL; PromptMessage.content := ContentList [];
                  PromptMessage.name := None |};
             ToolPromptMessage.tool_call_id := "call_1" |} ∧
  PromptMessage.role
    (ToolPromptMessage.base
       {| ToolPromptMessage.base :=
            {| PromptMessage.role := TOOL; PromptMessage.content := ContentList [];
               PromptMessage.name := None |};
          ToolPromptMessage.tool_call_id := "call_1" |}) = TOOL.
Proof.
  split; [reflexivity|]. split; [reflexivity|].
  destruct (role_is_default_or_given none_content_args) as [Hdefault _].
  destruct (Hdefault eq_refl) as (_ & _ & _ & Htool).
  apply (Htool (Some (PyStr "call_1"))). reflexivity.
Defined.

(** ** Content normalization *)

Lemma content_type_of_value_spec s t :
  content_type_of_value s = Some t ↔ s = content_type_value t.
Proof.
  unfold content_type_of_value. split.
  - repeat match goal with
    | |- context [String.eqb s ?v] =>
        destruct (String.eqb_spec s v) as [->|?]; [by intros [= <-]|]
    end.
    discriminate.
  - intros ->. by destruct t.
Qed.

Lemma tag_of_Some d t :
  tag_of d = Some t ↔ d !! "type" = Some (PyStr (content_type_value t)).
Proof.
  unfold tag_of. destruct (d !! "type") as [v|]; [destruct v|];
    rewrite ?content_type_of_value_spec; split; try congruence; try discriminate.
Qed.

Lemma tag_of_None d : tag_of d = None ↔ ¬ recognized d.
Proof.
  unfold recognized. split.
  - intros Hn [t Ht%tag_of_Some]. congruence.
  - intros Hn. destruct (tag_of d) as [t|] eqn:Ht; [|done].
    destruct Hn. exists t. by apply tag_of_Some.
Qed.

(** One iteration of the loop on a [dict]. *)
Lemma transform_content_loop_dict d l acc :
  transform_content_loop (Dict d :: l) acc =
  match tag_of d with
  | Some t =>
      match new_content t d with
      | inl e => inl e
      | inr c => transform_content_loop l (acc ++ [c])
      end
  | None => transform_content_loop l acc
  end.
Proof.
  cbn [transform_content_loop].
  unfold tag_of, content_type_of_value, dict_get.
  destruct (d !! "type") as [v|]; [destruct v|];
    cbn [from_option id eq_str content_type_value]; try reflexivity.
  repeat match goal with
  | |- context [String.eqb s ?v] => destruct (String.eqb s v); [reflexivity|]
  end.
  reflexivity.
Qed.

Lemma transform_content_loop_app l1 l2 acc :
  transform_content_loop (l1 ++ l2) acc =
  match transform_content_loop l1 acc with
  | inl e => inl e
  | inr r => transform_content_loop l2 r
  end.
Proof.
  revert acc. induction l1 as [|x l1 IH]; intros acc; [reflexivity|].
  rewrite <- app_comm_cons. destruct x as [c|d].
  - cbn [transform_content_loop]. apply IH.
  - rewrite !transform_content_loop_dict.
    destruct (tag_of d); [|apply IH].
    destruct (new_content _ d); [reflexivity|apply IH].
Qed.

Lemma transform_content_seq l :
  transform_content (ArgSeq l) =
  match transform_content_loop l [] with
  | inl e => inl e
  | inr result => inr (ContentList result)
  end.
Proof. by destruct l. Qed.

Lemma bogus_unrecognized : ¬ recognized bogus.
Proof. intros [t Ht]. destruct t; vm_compute in Ht; discriminate. Qed.

(** C4: a [dict] whose tag is none of the five content types leaves no
    trace: the validator returns, or raises, what it does on the sequence
    without that element.  On the single element tagged "bogus" it returns
    the empty list. *)
Theorem unknown_kind_dropped (l1 l2 : list ContentItem) (d : gmap string PyValue)
    (Hd : ¬ recognized d) :
  transform_content (ArgSeq (l1 ++ Dict d :: l2)) = transform_content (ArgSeq (l1 ++ l2)) ∧
  transform_content (ArgSeq [Dict bogus]) = inr (ContentList []).
Proof.
  split; [|reflexivity].
  rewrite !transform_content_seq, !transform_content_loop_app.
  destruct (transform_content_loop l1 []) as [e|r]; [reflexivity|].
  rewrite transform_content_loop_dict.
  apply tag_of_None in Hd. by rewrite Hd.
Qed.

Lemma unknown_kind_dropped_witness :
  ¬ recognized bogus ∧
  transform_content
    (ArgSeq ([Typed (TextPromptMessageContent "a")] ++
             Dict bogus :: [Typed (TextPromptMessageContent "b")]))
  = transform_content
      (ArgSeq ([Typed (TextPromptMessageContent "a")] ++
               [Typed (TextPromptMessageContent "b")])).
Proof.
  split; [exact bogus_unrecognized|].
  apply (unknown_kind_dropped [Typed (TextPromptMessageContent "a")]
           [Typed (TextPromptMessageContent "b")] bogus bogus_unrecognized).
Defined.

(** What the loop returns extends the list it started from by the
    contributions, in order, of the elements it kept; the typed elements are
    all among them. *)
Lemma transform_content_loop_kept l :
  ∀ acc r, transform_content_loop l acc = inr r →
  ∃ kept r', r = (acc ++ r')%list ∧ kept `sublist_of` l ∧ Forall2 yields kept r' ∧
             filter is_typed kept = filter is_typed l.
Proof.
  induction l as [|x l IH]; intros acc r Hr.
  - injection Hr as <-. exists [], []. rewrite app_nil_r. repeat split; constructor.
  - destruct x as [c|d].
    + cbn [transform_content_loop] in Hr.
      destruct (IH _ _ Hr) as (kept & r' & -> & Hsub & Hy & Hty).
      exists (Typed c :: kept), (c :: r'). split; [by rewrite <- app_assoc|].
      split; [by constructor|]. split; [constructor; [constructor|done]|].
      rewrite !filter_cons_True by done. by rewrite Hty.
    + rewrite transform_content_loop_dict in Hr.
      destruct (tag_of d) as [t|] eqn:Ht.
      * destruct (new_content t d) as [e|c] eqn:Hc; [discriminate|].
        destruct (IH _ _ Hr) as (kept & r' & -> & Hsub & Hy & Hty).
        exists (Dict d :: kept), (c :: r'). split; [by rewrite <- app_assoc|].
        split; [by constructor|]. split.
        { constructor; [|done]. apply tag_of_Some in Ht. by econstructor. }
        rewrite !filter_cons_False by (simpl; tauto). done.
      * destruct (IH _ _ Hr) as (kept & r' & -> & Hsub & Hy & Hty).
        exists kept, r'. split; [done|]. split; [by constructor|]. split; [done|].
        rewrite filter_cons_False by (simpl; tauto). done.
Qed.

Lemma yields_typed_inv c c' : yields (Typed c) c' → c' = c.
Proof. by inversion 1. Qed.

Lemma typed_kept kept r c :
  Forall2 yields kept r → Typed c ∈ kept → c ∈ r.
Proof.
  induction 1 as [|x c' kept r Hy _ IH]; [by rewrite elem_of_nil|].
  rewrite !elem_of_cons. intros [<-|Hin].
  - left. symmetry. by apply yields_typed_inv.
  - right. by apply IH.
Qed.

(** C8: when the validator returns on a sequence, the list it returns is
    made, element by element and in the order of the input, of what a
    sub-sequence of the input contributes; that sub-sequence contains every
    typed element of the input, and a typed element contributes itself. *)
Theorem order_preserved_typed_unchanged (l : list ContentItem)
    (r : list PromptMessageContent)
    (Hr : transform_content (ArgSeq l) = inr (ContentList r)) :
  (∃ kept, kept `sublist_of` l ∧ Forall2 yields kept r ∧
           filter is_typed kept = filter is_typed l) ∧
  (∀ c c', yields (Typed c) c' → c' = c) ∧
  (∀ c, Typed c ∈ l → c ∈ r).
Proof.
  rewrite transform_content_seq in Hr.
  destruct (transform_content_loop l []) as [e|r0] eqn:Hloop; [discriminate|].
  injection Hr as ->.
  destruct (transform_content_loop_kept _ _ _ Hloop) as (kept & r' & -> & Hsub & Hy & Hty).
  rewrite app_nil_l. split; [by exists kept|]. split; [apply yields_typed_inv|].
  intros c Hc. apply (typed_kept kept); [done|].
  assert (Typed c ∈ filter is_typed l) as Hin by (by apply list_elem_of_filter).
  rewrite <- Hty in Hin. by apply list_elem_of_filter in Hin as [_ Hin].
Qed.

Lemma order_preserved_typed_unchanged_witness :
  transform_content
    (ArgSeq [Typed (TextPromptMessageContent "a"); Dict bogus;
             Typed (TextPromptMessageContent "b")])
  = inr (ContentList [TextPromptMessageContent "a"; TextPromptMessageContent "b"]) ∧
  TextPromptMessageContent "b"
    ∈ [TextPromptMessageContent "a"; TextPromptMessageContent "b"].
Proof.
  assert (transform_content
            (ArgSeq [Typed (TextPromptMessageContent "a"); Dict bogus;
                     Typed (TextPromptMessageContent "b")])
          = inr (ContentList [TextPromptMessageContent "a"; TextPromptMessageContent "b"]))
    as Hr by reflexivity.
  split; [exact Hr|].
  destruct (order_preserved_typed_unchanged _ _ Hr) as (_ & _ & Hin).
  apply Hin. do 2 apply list_elem_of_further. apply list_elem_of_here.
Defined.

(** ** Required fields *)

Lemma str_field_missing loc kw :
  kw !! loc = None → str_field loc None kw = inl [(loc, missing)].
Proof. intros H. unfold str_field. by rewrite H. Qed.

(** Membership in the gathered errors. *)
Local Ltac in_errors :=
  cbn [errors_of]; rewrite ?elem_of_app, ?elem_of_cons; naive_solver.

Lemma multi_modal_fields_missing kw f :
  f ∈ ["format"; "mime_type"] → kw !! f = None →
  ∃ errs, multi_modal_fields kw = inl errs ∧ (f, missing) ∈ errs.
Proof.
  rewrite !elem_of_cons, elem_of_nil. intros [->|[->|[]]] Hf; unfold multi_modal_fields;
    rewrite (str_field_missing _ _ Hf).
  - eexists. split; [reflexivity|]. cbn [errors_of]. set_solver.
  - destruct (str_field "format" None kw), (str_field "base64_data" _ kw),
      (str_field "url" _ kw); (eexists; split; [reflexivity|]); in_errors.
Qed.

(** C9: building the content class a tag names from a [dict] that lacks
    a required field ([data] for text; [format] or [mime_type] for image,
    audio, video and document) raises a validation error that reports the
    field as missing; the content validator raises the same error on a
    sequence holding such a [dict] under its tag. *)
Theorem missing_required_field (t : PromptMessageContentType)
    (kw : gmap string PyValue) (f : string)
    (Hf : f ∈ required_fields t) (Hmiss : kw !! f = None) :
  ∃ errs, new_content t kw = inl (ValidationError errs) ∧
          (f, missing) ∈ errs ∧
          (kw !! "type" = Some (PyStr (content_type_value t)) →
           transform_content (ArgSeq [Dict kw]) = inl (ValidationError errs)).
Proof.
  assert (∃ errs, new_content t kw = inl (ValidationError errs) ∧ (f, missing) ∈ errs)
    as (errs & Hnew & Hin).
  { destruct t; cbn [required_fields new_content] in *.
    - apply list_elem_of_singleton in Hf as ->. unfold new_text.
      rewrite (str_field_missing _ _ Hmiss).
      destruct (type_field TEXT kw); (eexists; split; [reflexivity|]); in_errors.
    - destruct (multi_modal_fields_missing _ _ Hf Hmiss) as (e & He & Hin).
      unfold new_image. rewrite He.
      destruct (type_field IMAGE kw), (detail_field kw);
        (eexists; split; [reflexivity|]); in_errors.
    - destruct (multi_modal_fields_missing _ _ Hf Hmiss) as (e & He & Hin).
      unfold new_audio, new_multi_modal. rewrite He.
      destruct (type_field AUDIO kw); (eexists; split; [reflexivity|]); in_errors.
    - destruct (multi_modal_fields_missing _ _ Hf Hmiss) as (e & He & Hin).
      unfold new_video, new_multi_modal. rewrite He.
      destruct (type_field VIDEO kw); (eexists; split; [reflexivity|]); in_errors.
    - destruct (multi_modal_fields_missing _ _ Hf Hmiss) as (e & He & Hin).
      unfold new_document, new_multi_modal. rewrite He.
      destruct (type_field DOCUMENT kw); (eexists; split; [reflexivity|]); in_errors. }
  exists errs. split; [done|]. split; [done|].
  intros Htag%tag_of_Some.
  by rewrite transform_content_seq, transform_content_loop_dict, Htag, Hnew.
Qed.

Lemma missing_required_field_witness :
  "mime_type" ∈ required_fields IMAGE ∧
  ({[ "type" := PyStr "image"; "format" := PyStr "png" ]} : gmap string PyValue)
    !! "mime_type" = None ∧
  ∃ errs,
    new_content IMAGE {[ "type" := PyStr "image"; "format" := PyStr "png" ]}
      = inl (ValidationError errs) ∧
    ("mime_type", missing) ∈ errs.
Proof.
  assert ("mime_type" ∈ required_fields IMAGE) as Hf
    by apply list_elem_of_further, list_elem_of_here.
  assert (({[ "type" := PyStr "image"; "format" := PyStr "png" ]} : gmap string PyValue)
            !! "mime_type" = None) as Hmiss by reflexivity.
  split; [exact Hf|]. split; [exact Hmiss|].
  destruct (missing_required_field IMAGE _ "mime_type" Hf Hmiss)
    as (errs & Hnew & Hin & _).
  by exists errs.
Defined.

(** * Further properties *)

(** ** Roles *)

(** X1: [value_of] returns the role [r] on exactly the string that is the
    value of [r]; parsing the value of a role gives the role back, and two
    roles never share a value. *)
Theorem value_of_iff (v : string) (r : PromptMessageRole) :
  (value_of v = inr r ↔ role_value r = v) ∧
  (∀ r', role_value r = role_value r' → r = r').
Proof.
  split.
  - split; [apply value_of_loop_sound|]. intros <-. apply value_of_member.
  - intros r' Heq. pose proof (value_of_member r) as Hr.
    rewrite Heq, value_of_member in Hr. congruence.
Qed.

(** ** Multi-modal data *)

(** X2: the [data] of a multi-modal content is never the empty string, and
    it is the [url] exactly when the [url] is not empty. *)
Theorem data_never_empty (mm : MultiModalPromptMessageContent) :
  data mm ≠ "" ∧ (data mm = url mm ↔ url mm ≠ "").
Proof.
  unfold data. destruct (url mm) as [|a u] eqn:Hu; cbn [truthy_str].
  - split; [discriminate|]. split; [discriminate|congruence].
  - split; [discriminate|]. split; [discriminate|reflexivity].
Qed.

(** ** Tool-call ids *)

(** X3: when the [id] validator returns, what it returns is a string, and
    the validator run on that string returns it unchanged. *)
Theorem transform_id_to_str_idempotent (v w : PyValue)
    (Hw : AssistantPromptMessage.ToolCall.transform_id_to_str v = inr w) :
  isinstance_str w = true ∧
  AssistantPromptMessage.ToolCall.transform_id_to_str w = inr w.
Proof.
  unfold AssistantPromptMessage.ToolCall.transform_id_to_str in Hw.
  destruct (isinstance_str v) eqn:Hv; cbn [negb] in Hw.
  - injection Hw as <-. split; [exact Hv|].
    unfold AssistantPromptMessage.ToolCall.transform_id_to_str. by rewrite Hv.
  - destruct (py_str v); [discriminate|]. by injection Hw as <-.
Qed.

Lemma transform_id_to_str_idempotent_witness :
  isinstance_str (PyStr "42") = true ∧
  AssistantPromptMessage.ToolCall.transform_id_to_str (PyStr "42") = inr (PyStr "42").
Proof.
  destruct small_integers_in_range as (H42 & _).
  exact (transform_id_to_str_idempotent (PyInt 42) (PyStr "42")
           (transform_id_to_str_int_small 42 H42)).
Defined.


(** X5: two integer ids of at most 4300 digits are coerced to the same
    string only when they are the same integer; such an integer and the
    string of its numeral are coerced to the same id. *)
Theorem integer_ids_stay_distinct (a b : Z)
    (Ha : (Z.abs a < 10 ^ int_max_str_digits)%Z)
    (Hb : (Z.abs b < 10 ^ int_max_str_digits)%Z) :
  (AssistantPromptMessage.ToolCall.transform_id_to_str (PyInt a)
   = AssistantPromptMessage.ToolCall.transform_id_to_str (PyInt b) ↔ a = b) ∧
  AssistantPromptMessage.ToolCall.transform_id_to_str (PyInt a)
  = AssistantPromptMessage.ToolCall.transform_id_to_str
      (PyStr (NilZero.string_of_int (Z.to_int a))).
Proof.
  rewrite (transform_id_to_str_int_small a Ha), (transform_id_to_str_int_small b Hb).
  split; [|reflexivity]. split; [|by intros ->].
  intros [= Heq]. apply DecimalZ.to_int_inj.
  apply (f_equal NilZero.int_of_string) in Heq.
  rewrite !numeral_parses in Heq. congruence.
Qed.

Lemma integer_ids_stay_distinct_witness :
  (AssistantPromptMessage.ToolCall.transform_id_to_str (PyInt 42)
   = AssistantPromptMessage.ToolCall.transform_id_to_str (PyInt 7) ↔ 42%Z = 7%Z) ∧
  AssistantPromptMessage.ToolCall.transform_id_to_str (PyInt 42)
  = AssistantPromptMessage.ToolCall.transform_id_to_str
      (PyStr (NilZero.string_of_int (Z.to_int 42))).
Proof.
  destruct small_integers_in_range as (H42 & _ & H7).
  exact (integer_ids_stay_distinct 42 7 H42 H7).
Defined.

(** ** Content normalization, continued *)

Lemma new_content_type t kw c : new_content t kw = inr c → content_type c = t.
Proof.
  destruct t; cbn [new_content];
    unfold new_text, new_image, new_document, new_audio, new_video, new_multi_modal;
    intros H%model_validate_inr; repeat case_match; try discriminate;
    by injection H as <-.
Qed.

Lemma transform_content_loop_types l :
  ∀ acc r, transform_content_loop l acc = inr r →
  content_type <$> r = ((content_type <$> acc) ++ omap item_type l)%list.
Proof.
  induction l as [|x l IH]; intros acc r Hr.
  - injection Hr as <-. by rewrite app_nil_r.
  - destruct x as [c|d].
    + cbn [transform_content_loop] in Hr. rewrite (IH _ _ Hr).
      by rewrite fmap_app, <- app_assoc.
    + rewrite transform_content_loop_dict in Hr. cbn [omap list_omap item_type].
      destruct (tag_of d) as [t|] eqn:Ht; [|by apply IH].
      destruct (new_content t d) as [e|c] eqn:Hc; [discriminate|].
      rewrite (IH _ _ Hr), fmap_app, <- app_assoc. cbn.
      by rewrite (new_content_type _ _ _ Hc).
Qed.

Lemma transform_content_loop_typed cs acc :
  transform_content_loop (Typed <$> cs) acc = inr (acc ++ cs)%list.
Proof.
  revert acc. induction cs as [|c cs IH]; intros acc; cbn.
  - by rewrite app_nil_r.
  - by rewrite IH, <- app_assoc.
Qed.

Lemma transform_content_inv_seq l c :
  transform_content (ArgSeq l) = inr c →
  ∃ r, c = ContentList r ∧ transform_content_loop l [] = inr r.
Proof.
  rewrite transform_content_seq.
  destruct (transform_content_loop l []) as [e|r]; [discriminate|].
  intros [= <-]. by exists r.
Qed.

Lemma type_field_string t kw s :
  kw !! "type" = Some (PyStr s) → type_field t kw = inl [("type", literal_error)].
Proof. intros H. unfold type_field. by rewrite H. Qed.

(** The class a string tag names refuses the [dict] that carries the tag. *)
Lemma new_content_string_tag t kw s :
  kw !! "type" = Some (PyStr s) →
  ∃ errs, new_content t kw = inl (ValidationError errs) ∧ ("type", literal_error) ∈ errs.
Proof.
  intros H. destruct t; cbn [new_content];
    unfold new_text, new_image, new_document, new_audio, new_video, new_multi_modal;
    rewrite (type_field_string _ kw s H).
  - destruct (str_field "data" None kw); (eexists; split; [reflexivity|]); in_errors.
  - destruct (multi_modal_fields kw), (detail_field kw);
      (eexists; split; [reflexivity|]); in_errors.
  - destruct (multi_modal_fields kw); (eexists; split; [reflexivity|]); in_errors.
  - destruct (multi_modal_fields kw); (eexists; split; [reflexivity|]); in_errors.
  - destruct (multi_modal_fields kw); (eexists; split; [reflexivity|]); in_errors.
Qed.

Lemma transform_content_loop_accepts l :
  ∀ acc,
    (Forall unrecognized_item l →
     transform_content_loop l acc = inr (acc ++ omap typed_value l)%list) ∧
    (∀ r, transform_content_loop l acc = inr r → Forall unrecognized_item l).
Proof.
  induction l as [|x l IH]; intros acc.
  - split; [intros _; cbn; by rewrite app_nil_r|]. intros _ _. constructor.
  - destruct x as [c|d].
    + cbn [transform_content_loop omap list_omap typed_value]. split.
      * intros Hl. apply Forall_cons in Hl as [_ Hl].
        rewrite (proj1 (IH _) Hl). by rewrite <- app_assoc.
      * intros r Hr. constructor; [by intros d [=]|]. exact (proj2 (IH _) r Hr).
    + rewrite transform_content_loop_dict. cbn [omap list_omap typed_value].
      destruct (tag_of d) as [t|] eqn:Ht.
      * pose proof Ht as Htag%tag_of_Some.
        destruct (new_content_string_tag t d _ Htag) as (errs & -> & _).
        split; [|discriminate].
        intros Hl. apply Forall_cons in Hl as [Hd _].
        destruct (Hd d eq_refl). by exists t.
      * split.
        -- intros Hl. apply Forall_cons in Hl as [_ Hl]. exact (proj1 (IH _) Hl).
        -- intros r Hr. constructor; [|exact (proj2 (IH _) r Hr)].
           intros d' [= <-]. by apply tag_of_None.
Qed.

(** X6: normalizing is idempotent: the content the validator returned,
    handed to the validator again, comes back unchanged. *)
Theorem transform_content_idempotent (value : ContentArg) (c : Content)
    (Hc : transform_content value = inr c) :
  transform_content (as_arg c) = inr c.
Proof.
  destruct c as [|s|r]; [|reflexivity|].
  - destruct value as [|s|l]; cbn in Hc; [discriminate|discriminate|].
    by apply transform_content_inv_seq in Hc as (r & [=] & _).
  - cbn [as_arg]. by rewrite transform_content_seq, transform_content_loop_typed.
Qed.

Lemma transform_content_idempotent_witness :
  transform_content
    (ArgSeq [Typed (TextPromptMessageContent "a"); Dict bogus;
             Typed (TextPromptMessageContent "b")])
  = inr (ContentList [TextPromptMessageContent "a"; TextPromptMessageContent "b"]) ∧
  transform_content
    (as_arg (ContentList [TextPromptMessageContent "a"; TextPromptMessageContent "b"]))
  = inr (ContentList [TextPromptMessageContent "a"; TextPromptMessageContent "b"]).
Proof.
  assert (transform_content
            (ArgSeq [Typed (TextPromptMessageContent "a"); Dict bogus;
                     Typed (TextPromptMessageContent "b")])
          = inr (ContentList [TextPromptMessageContent "a"; TextPromptMessageContent "b"]))
    as Hr by reflexivity.
  split; [exact Hr|]. exact (transform_content_idempotent _ _ Hr).
Defined.

(** X7: the validator stops at the first [dict] whose class rejects it:
    when the elements before it are accepted, the error of that [dict] is
    the error of the whole sequence, whatever follows it. *)
Theorem first_rejected_dict_decides (l1 l2 : list ContentItem)
    (r1 : list PromptMessageContent) (d : gmap string PyValue)
    (t : PromptMessageContentType) (e : Exception)
    (Hprefix : transform_content (ArgSeq l1) = inr (ContentList r1))
    (Htag : d !! "type" = Some (PyStr (content_type_value t)))
    (Hrej : new_content t d = inl e) :
  transform_content (ArgSeq (l1 ++ Dict d :: l2)) = inl e.
Proof.
  apply transform_content_inv_seq in Hprefix as (r & _ & Hloop).
  rewrite transform_content_seq, transform_content_loop_app, Hloop.
  apply tag_of_Some in Htag.
  by rewrite transform_content_loop_dict, Htag, Hrej.
Qed.

Lemma first_rejected_dict_decides_witness :
  transform_content
    (ArgSeq ([Typed (TextPromptMessageContent "a")] ++
             Dict {[ "type" := PyStr "text" ]} ::
             [Dict {[ "type" := PyStr "image" ]}]))
  = inl (ValidationError [("type", literal_error); ("data", missing)]).
Proof.
  apply (first_rejected_dict_decides [Typed (TextPromptMessageContent "a")]
           [Dict {[ "type" := PyStr "image" ]}]
           [TextPromptMessageContent "a"] {[ "type" := PyStr "text" ]} TEXT);
    reflexivity.
Defined.

(** X8: the validator returns on a sequence exactly when no element is a
    [dict] with a recognized tag, and what it then returns is the list of
    the typed elements of the input, in their order, and nothing else. *)
Theorem sequence_accepted_iff (l : list ContentItem) :
  ((∃ c, transform_content (ArgSeq l) = inr c) ↔ Forall unrecognized_item l) ∧
  (∀ c, transform_content (ArgSeq l) = inr c → c = ContentList (omap typed_value l)).
Proof.
  rewrite transform_content_seq.
  destruct (transform_content_loop_accepts l []) as [Hacc Hinv].
  split; [split|].
  - intros [c Hc]. destruct (transform_content_loop l []) as [e|r] eqn:Hr; [discriminate|].
    exact (Hinv r eq_refl).
  - intros Hl. rewrite (Hacc Hl). by eexists.
  - intros c Hc. destruct (transform_content_loop l []) as [e|r] eqn:Hr; [discriminate|].
    pose proof (Hacc (Hinv r eq_refl)) as Hr'.
    injection Hr' as ->. by injection Hc as <-.
Qed.

Lemma append_empty_r (s : string) : s +:+ "" = s.
Proof.
  induction s as [|a s IH]; [reflexivity|].
  change (String a (s +:+ "") = String a s). by rewrite IH.
Qed.

(** X9: a [dict] tagged with the string value of a content type is refused
    by the class the validator hands it to, whatever else it holds: the
    string is not the member the [type] field demands, and the validator
    raises the validation error of the class, which names [type]. *)
Theorem recognized_dict_rejected (t : PromptMessageContentType)
    (kw : gmap string PyValue)
    (Htag : kw !! "type" = Some (PyStr (content_type_value t))) :
  ∃ errs, new_content t kw = inl (ValidationError errs) ∧
          ("type", literal_error) ∈ errs ∧
          transform_content (ArgSeq [Dict kw]) = inl (ValidationError errs).
Proof.
  destruct (new_content_string_tag t kw _ Htag) as (errs & Hnew & Hin).
  exists errs. split; [exact Hnew|]. split; [exact Hin|].
  apply tag_of_Some in Htag.
  by rewrite transform_content_seq, transform_content_loop_dict, Htag, Hnew.
Qed.

Lemma recognized_dict_rejected_witness :
  ∃ errs,
    new_content TEXT {[ "type" := PyStr "text"; "data" := PyStr "hi" ]}
      = inl (ValidationError errs) ∧
    ("type", literal_error) ∈ errs ∧
    transform_content (ArgSeq [Dict {[ "type" := PyStr "text"; "data" := PyStr "hi" ]}])
      = inl (ValidationError errs).
Proof.
  assert (({[ "type" := PyStr "text"; "data" := PyStr "hi" ]} : gmap string PyValue)
            !! "type" = Some (PyStr (content_type_value TEXT))) as Htag by reflexivity.
  exact (recognized_dict_rejected TEXT _ Htag).
Defined.

(** X10: an image, audio, video or document content built from keyword
    arguments that give [format] and [mime_type] and nothing else is
    accepted; [url] and [base64_data] default to the empty string, so the
    [data] of the instance is the data URI with an empty payload. *)
Theorem multi_modal_defaults (t : PromptMessageContentType)
    (kw : gmap string PyValue) (f m : string)
    (Ht : t ≠ TEXT)
    (Htype : kw !! "type" = None)
    (Hformat : kw !! "format" = Some (PyStr f))
    (Hmime : kw !! "mime_type" = Some (PyStr m))
    (Hb : kw !! "base64_data" = None)
    (Hu : kw !! "url" = None)
    (Hd : kw !! "detail" = None) :
  ∃ c, new_content t kw = inr c ∧
       content_type c = t ∧
       content_data c = "data:" +:+ m +:+ ";base64,".
Proof.
  assert (multi_modal_fields kw
          = inr {| format := f; base64_data := ""; url := ""; mime_type := m |}) as Hmm.
  { unfold multi_modal_fields, str_field. by rewrite Hformat, Hmime, Hb, Hu. }
  assert (data {| format := f; base64_data := ""; url := ""; mime_type := m |}
          = "data:" +:+ m +:+ ";base64,") as Hdata.
  { unfold data. cbn. by rewrite append_empty_r. }
  destruct t; [done| | | |]; cbn [new_content];
    unfold new_image, new_audio, new_video, new_document, new_multi_modal, detail_field,
      type_field;
    rewrite Hmm, ?Hd, Htype; cbn;
    (eexists; split; [reflexivity|]); (split; [reflexivity|exact Hdata]).
Qed.

Lemma multi_modal_defaults_witness :
  ∃ c, new_content AUDIO {[ "format" := PyStr "mp3"; "mime_type" := PyStr "audio/mpeg" ]}
       = inr c ∧
       content_type c = AUDIO ∧
       content_data c = "data:" +:+ "audio/mpeg" +:+ ";base64,".
Proof.
  apply (multi_modal_defaults AUDIO
           {[ "format" := PyStr "mp3"; "mime_type" := PyStr "audio/mpeg" ]}
           "mp3" "audio/mpeg");
    first [discriminate | reflexivity].
Defined.

(** ** Messages, continued *)

Lemma omap_nil_iff {A B} (f : A → option B) (l : list A) :
  omap f l = [] ↔ Forall (λ x, f x = None) l.
Proof.
  induction l as [|x l IH]; cbn; [by split; [constructor|]|].
  destruct (f x) eqn:Hx; split.
  - discriminate.
  - inversion 1; congruence.
  - intros H. constructor; [done|]. by apply IH.
  - inversion 1; subst. by apply IH.
Qed.

Lemma fields_sequence_empty dflt args l m :
  PromptMessage.content_arg args = Some (ArgSeq l) →
  PromptMessage.fields dflt args = inr m →
  PromptMessage.is_empty m = true ↔ Forall (λ x, item_type x = None) l.
Proof.
  intros Harg (_ & Hc & _)%fields_inv. rewrite Harg in Hc. cbn [content_field] in Hc.
  destruct (transform_content (ArgSeq l)) as [e|c] eqn:Ht; [discriminate|].
  injection Hc as ->.
  apply transform_content_inv_seq in Ht as (r & Hr & Hloop).
  apply transform_content_loop_types in Hloop. cbn in Hloop.
  rewrite <- omap_nil_iff, <- Hloop. unfold PromptMessage.is_empty. rewrite Hr.
  destruct r; cbn; split; congruence.
Qed.

Lemma fields_content_rejected dflt args value e :
  PromptMessage.content_arg args = Some value →
  transform_content value = inl e →
  ∃ errs, PromptMessage.fields dflt args = inl errs.
Proof.
  intros Harg He. unfold PromptMessage.fields, content_field. rewrite Harg, He.
  destruct (role_field _ _), (name_field _); by eexists.
Qed.

(** X11: a string given as content is stored as it is by every class,
    without validation, and the message is empty under the base rule exactly
    when the string is empty. *)
Theorem string_content_kept (s : string) :
  UserPromptMessage.new (content_args (ArgStr s))
    = inr {| PromptMessage.role := USER; PromptMessage.content := ContentStr s;
             PromptMessage.name := None |} ∧
  SystemPromptMessage.new (content_args (ArgStr s))
    = inr {| PromptMessage.role := SYSTEM; PromptMessage.content := ContentStr s;
             PromptMessage.name := None |} ∧
  AssistantPromptMessage.new (content_args (ArgStr s)) None
    = inr {| AssistantPromptMessage.base :=
               {| PromptMessage.role := ASSISTANT; PromptMessage.content := ContentStr s;
                  PromptMessage.name := None |};
             AssistantPromptMessage.tool_calls := [] |} ∧
  (∀ i, ToolPromptMessage.new (content_args (ArgStr s)) (Some (PyStr i))
    = inr {| ToolPromptMessage.base :=
               {| PromptMessage.role := TOOL; PromptMessage.content := ContentStr s;
                  PromptMessage.name := None |};
             ToolPromptMessage.tool_call_id := i |}) ∧
  (∀ r n, PromptMessage.is_empty
            {| PromptMessage.role := r; PromptMessage.content := ContentStr s;
               PromptMessage.name := n |} = true ↔ s = "").
Proof.
  split; [reflexivity|]. split; [reflexivity|]. split; [reflexivity|].
  split; [reflexivity|].
  intros r n. unfold PromptMessage.is_empty. cbn [PromptMessage.content truthy_content].
  destruct s; cbn; split; congruence.
Qed.

(** X12: a message built from a sequence is empty under the base rule
    exactly when the sequence holds no typed value and no [dict] with a
    recognized tag, that is, when the validator kept nothing. *)
Theorem sequence_message_empty_iff (args : PromptMessage.Args) (l : list ContentItem)
    (Harg : PromptMessage.content_arg args = Some (ArgSeq l)) :
  (∀ m, UserPromptMessage.new args = inr m →
     (UserPromptMessage.is_empty m = true ↔ Forall (λ x, item_type x = None) l)) ∧
  (∀ m, SystemPromptMessage.new args = inr m →
     (SystemPromptMessage.is_empty m = true ↔ Forall (λ x, item_type x = None) l)) ∧
  (∀ tcs m, AssistantPromptMessage.new args tcs = inr m →
     (PromptMessage.is_empty (AssistantPromptMessage.base m) = true
      ↔ Forall (λ x, item_type x = None) l)) ∧
  (∀ i m, ToolPromptMessage.new args i = inr m →
     (PromptMessage.is_empty (ToolPromptMessage.base m) = true
      ↔ Forall (λ x, item_type x = None) l)).
Proof.
  split; [|split; [|split]].
  - intros m Hm%model_validate_inr. exact (fields_sequence_empty _ _ _ _ Harg Hm).
  - intros m Hm%model_validate_inr. exact (fields_sequence_empty _ _ _ _ Harg Hm).
  - intros tcs m Hm%assistant_new_inv. exact (fields_sequence_empty _ _ _ _ Harg Hm).
  - intros i m Hm%tool_new_inv. exact (fields_sequence_empty _ _ _ _ Harg Hm).
Qed.

Lemma sequence_message_empty_iff_witness :
  UserPromptMessage.is_empty
    {| PromptMessage.role := USER; PromptMessage.content := ContentList [];
       PromptMessage.name := None |} = true
  ↔ Forall (λ x, item_type x = None) [Dict bogus; Dict ∅].
Proof.
  apply (proj1 (sequence_message_empty_iff
                  (content_args (ArgSeq [Dict bogus; Dict ∅])) _ eq_refl)).
  reflexivity.
Defined.

(** X13: no message is built around a content the validator rejects:
    whatever the other arguments, each of the four constructors raises a
    validation error. *)
Theorem rejected_content_blocks_construction (args : PromptMessage.Args)
    (value : ContentArg) (e : Exception)
    (Harg : PromptMessage.content_arg args = Some value)
    (He : transform_content value = inl e) :
  (∃ errs, UserPromptMessage.new args = inl (ValidationError errs)) ∧
  (∃ errs, SystemPromptMessage.new args = inl (ValidationError errs)) ∧
  (∀ tcs, ∃ errs, AssistantPromptMessage.new args tcs = inl (ValidationError errs)) ∧
  (∀ i, ∃ errs, ToolPromptMessage.new args i = inl (ValidationError errs)).
Proof.
  split; [|split; [|split]].
  - destruct (fields_content_rejected (Some USER) _ _ _ Harg He) as [errs H].
    exists errs. unfold UserPromptMessage.new. by rewrite H.
  - destruct (fields_content_rejected (Some SYSTEM) _ _ _ Harg He) as [errs H].
    exists errs. unfold SystemPromptMessage.new. by rewrite H.
  - intros tcs. destruct (fields_content_rejected (Some ASSISTANT) _ _ _ Harg He) as [errs H].
    exists errs. unfold AssistantPromptMessage.new. by rewrite H.
  - intros i. destruct (fields_content_rejected (Some TOOL) _ _ _ Harg He) as [errs H].
    unfold ToolPromptMessage.new. rewrite H.
    destruct (AssistantPromptMessage.ToolCall.str_arg _ _); by eexists.
Qed.

Lemma rejected_content_blocks_construction_witness :
  ∃ errs,
    UserPromptMessage.new (content_args (ArgSeq [Dict {[ "type" := PyStr "text" ]}]))
    = inl (ValidationError errs).
Proof.
  assert (transform_content (ArgSeq [Dict {[ "type" := PyStr "text" ]}])
          = inl (ValidationError [("type", literal_error); ("data", missing)]))
    as He by reflexivity.
  exact (proj1 (rejected_content_blocks_construction
                  (content_args (ArgSeq [Dict {[ "type" := PyStr "text" ]}]))
                  _ _ eq_refl He)).
Defined.

(** X14: without a side channel the overriding [is_empty] methods agree
    with the base rule: an assistant message built without [tool_calls] has
    none and is empty exactly when its content is, and so is a tool message
    built with the empty string as [tool_call_id]. *)
Theorem overrides_agree_with_base (args : PromptMessage.Args)
    (ma : AssistantPromptMessage.t) (mt : ToolPromptMessage.t)
    (Ha : AssistantPromptMessage.new args None = inr ma)
    (Ht : ToolPromptMessage.new args (Some (PyStr "")) = inr mt) :
  AssistantPromptMessage.tool_calls ma = [] ∧
  AssistantPromptMessage.is_empty ma
    = PromptMessage.is_empty (AssistantPromptMessage.base ma) ∧
  ToolPromptMessage.is_empty mt = PromptMessage.is_empty (ToolPromptMessage.base mt).
Proof.
  unfold AssistantPromptMessage.new in Ha. apply model_validate_inr in Ha.
  unfold ToolPromptMessage.new in Ht. apply model_validate_inr in Ht.
  destruct (PromptMessage.fields (Some ASSISTANT) args) as [|ba]; [discriminate|].
  destruct (PromptMessage.fields (Some TOOL) args) as [|bt]; [discriminate|].
  injection Ha as <-. cbn in Ht. injection Ht as <-.
  unfold AssistantPromptMessage.is_empty, ToolPromptMessage.is_empty. cbn.
  split; [reflexivity|]. split.
  - by destruct (PromptMessage.is_empty ba).
  - by destruct (PromptMessage.is_empty bt).
Qed.

Lemma overrides_agree_with_base_witness :
  AssistantPromptMessage.is_empty
    {| AssistantPromptMessage.base :=
         {| PromptMessage.role := ASSISTANT; PromptMessage.content := ContentStr "hi";
            PromptMessage.name := None |};
       AssistantPromptMessage.tool_calls := [] |}
  = PromptMessage.is_empty
      {| PromptMessage.role := ASSISTANT; PromptMessage.content := ContentStr "hi";
         PromptMessage.name := None |}.
Proof.
  apply (overrides_agree_with_base (content_args (ArgStr "hi")) _
           {| ToolPromptMessage.base :=
                {| PromptMessage.role := TOOL; PromptMessage.content := ContentStr "hi";
                   PromptMessage.name := None |};
              ToolPromptMessage.tool_call_id := "" |} eq_refl eq_refl).
Defined.

(** X15: a tool message cannot be built without [tool_call_id], and a
    plain [PromptMessage] cannot be built without [role]: the validation
    error reports the field as missing, whatever the other arguments. *)
Theorem message_required_fields (r n : option PyValue) (c : option ContentArg) :
  (∃ errs,
     ToolPromptMessage.new
       {| PromptMessage.role_arg := r; PromptMessage.content_arg := c;
          PromptMessage.name_arg := n |} None
     = inl (ValidationError errs) ∧
     ("tool_call_id", missing) ∈ errs) ∧
  (∃ errs,
     PromptMessage.new
       {| PromptMessage.role_arg := None; PromptMessage.content_arg := c;
          PromptMessage.name_arg := n |}
     = inl (ValidationError errs) ∧
     ("role", missing) ∈ errs).
Proof.
  split.
  - unfold ToolPromptMessage.new. cbn [AssistantPromptMessage.ToolCall.str_arg].
    destruct (PromptMessage.fields _ _); (eexists; split; [reflexivity|]); in_errors.
  - unfold PromptMessage.new, PromptMessage.fields. cbn [PromptMessage.role_arg role_field].
    destruct (content_field _), (name_field _); (eexists; split; [reflexivity|]);
      in_errors.
Qed.

Lemma fields_omitted_content dflt args m :
  PromptMessage.content_arg args = None →
  PromptMessage.fields dflt args = inr m →
  PromptMessage.content m = ContentNone ∧ PromptMessage.is_empty m = true.
Proof.
  intros Harg (_ & Hc & _)%fields_inv. rewrite Harg in Hc. injection Hc as Hc.
  unfold PromptMessage.is_empty. by rewrite <- Hc.
Qed.

(** X16: the content validator does not run on the default: a message
    built without a [content] argument holds [None], not the empty list,
    and is empty under the base rule. *)
Theorem omitted_content_stays_none (args : PromptMessage.Args)
    (Harg : PromptMessage.content_arg args = None) :
  (∀ m, UserPromptMessage.new args = inr m →
     PromptMessage.content m = ContentNone ∧ UserPromptMessage.is_empty m = true) ∧
  (∀ m, SystemPromptMessage.new args = inr m →
     PromptMessage.content m = ContentNone ∧ SystemPromptMessage.is_empty m = true) ∧
  (∀ tcs m, AssistantPromptMessage.new args tcs = inr m →
     PromptMessage.content (AssistantPromptMessage.base m) = ContentNone ∧
     PromptMessage.is_empty (AssistantPromptMessage.base m) = true) ∧
  (∀ i m, ToolPromptMessage.new args i = inr m →
     PromptMessage.content (ToolPromptMessage.base m) = ContentNone ∧
     PromptMessage.is_empty (ToolPromptMessage.base m) = true).
Proof.
  split; [|split; [|split]].
  - intros m Hm%model_validate_inr. exact (fields_omitted_content _ _ _ Harg Hm).
  - intros m Hm%model_validate_inr. exact (fields_omitted_content _ _ _ Harg Hm).
  - intros tcs m Hm%assistant_new_inv. exact (fields_omitted_content _ _ _ Harg Hm).
  - intros i m Hm%tool_new_inv. exact (fields_omitted_content _ _ _ Harg Hm).
Qed.

Lemma omitted_content_stays_none_witness :
  PromptMessage.content
    {| PromptMessage.role := SYSTEM; PromptMessage.content := ContentNone;
       PromptMessage.name := None |} = ContentNone ∧
  UserPromptMessage.is_empty
    {| PromptMessage.role := SYSTEM; PromptMessage.content := ContentNone;
       PromptMessage.name := None |} = true.
Proof.
  apply (proj1 (omitted_content_stays_none system_role_args eq_refl)).
  reflexivity.
Defined.

Lemma value_of_loop_role_of_value members s :
  value_of_loop members s =
  match role_of_value members s with
  | Some r => inr r
  | None => inl (ValueError ("invalid prompt message type value " +:+ s))
  end.
Proof.
  induction members as [|m ms IH]; [reflexivity|].
  cbn [value_of_loop role_of_value]. by destruct (String.eqb (role_value m) s).
Qed.

Lemma fields_role_string dflt args s :
  PromptMessage.role_arg args = Some (PyStr s) →
  (∀ m, PromptMessage.fields dflt args = inr m → value_of s = inr (PromptMessage.role m)) ∧
  (∀ e, value_of s = inl e →
     ∃ errs, PromptMessage.fields dflt args = inl errs ∧ ("role", enum_error) ∈ errs).
Proof.
  intros Harg. unfold value_of. rewrite value_of_loop_role_of_value. split.
  - intros m (Hr & _ & _)%fields_inv. rewrite Harg in Hr. cbn [role_field] in Hr.
    destruct (role_of_value role_members s); congruence.
  - intros e He. unfold PromptMessage.fields. rewrite Harg. cbn [role_field].
    destruct (role_of_value role_members s); [discriminate|].
    destruct (content_field _), (name_field _); (eexists; split; [reflexivity|]);
      in_errors.
Qed.

(** X17: a role given to a constructor as a string is read as [value_of]
    reads it: the message carries the role [value_of] returns on the
    string, and a string [value_of] rejects makes the construction fail
    with an error on [role]. *)
Theorem role_string_read_as_value_of (args : PromptMessage.Args) (s : string)
    (Harg : PromptMessage.role_arg args = Some (PyStr s)) :
  (∀ m, UserPromptMessage.new args = inr m → value_of s = inr (PromptMessage.role m)) ∧
  (∀ m, SystemPromptMessage.new args = inr m → value_of s = inr (PromptMessage.role m)) ∧
  (∀ tcs m, AssistantPromptMessage.new args tcs = inr m →
     value_of s = inr (PromptMessage.role (AssistantPromptMessage.base m))) ∧
  (∀ i m, ToolPromptMessage.new args i = inr m →
     value_of s = inr (PromptMessage.role (ToolPromptMessage.base m))) ∧
  (∀ e, value_of s = inl e →
     ∃ errs, UserPromptMessage.new args = inl (ValidationError errs) ∧
             ("role", enum_error) ∈ errs).
Proof.
  split; [|split; [|split; [|split]]].
  - intros m Hm%model_validate_inr.
    exact (proj1 (fields_role_string _ _ _ Harg) m Hm).
  - intros m Hm%model_validate_inr.
    exact (proj1 (fields_role_string _ _ _ Harg) m Hm).
  - intros tcs m Hm%assistant_new_inv.
    exact (proj1 (fields_role_string _ _ _ Harg) _ Hm).
  - intros i m Hm%tool_new_inv.
    exact (proj1 (fields_role_string _ _ _ Harg) _ Hm).
  - intros e He.
    destruct (proj2 (fields_role_string (Some USER) _ _ Harg) e He) as (errs & Hf & Hin).
    exists errs. unfold UserPromptMessage.new. by rewrite Hf.
Qed.

Lemma role_string_read_as_value_of_witness :
  value_of "tool"
  = inr (PromptMessage.role
           {| PromptMessage.role := TOOL; PromptMessage.content := ContentNone;
              PromptMessage.name := None |}).
Proof.
  apply (proj1 (role_string_read_as_value_of
                  {| PromptMessage.role_arg := Some (PyStr "tool");
                     PromptMessage.content_arg := None;
                     PromptMessage.name_arg := None |} "tool" eq_refl)).
  reflexivity.
Defined.
